(** * Revit Python Wrapper: the base wrapper and the selection wrapper

    A shallow embedding of [rpw/base.py], [rpw/exceptions.py] and
    [rpw/ui/selection.py].  The host application (Revit) is modelled by a
    [world]: a heap of host objects reached through handles, the ordered
    collection of identifiers held by [uidoc.Selection], the set of elements
    of the active document, and the text printed so far.  Every method is a
    computation in a state-and-exception monad over that world; what a
    method does to the world before it raises stays done, as in Python. *)

From stdpp Require Import base numbers list strings gmap pretty.

Local Open Scope string_scope.
Local Open Scope Z_scope.

(** ** Python values *)

Definition loc := positive.

#[warnings="-register-all"]
Inductive pyval : Type :=
| VNone
| VInt (n : Z)
| VStr (s : string)
| VList (items : list pyval)
| VElementId (n : Z)                     (* DB.ElementId(n) *)
| VElement (id : Z)                      (* a DB.Element whose Id is ElementId(id) *)
| VSelection                             (* the handle the host gives for uidoc.Selection *)
| VMember (owner : string) (name : string) (* a method bound to a host object *)
| VObj (l : loc).                        (* any other host object, by identity *)

(** ** Exceptions (rpw/exceptions.py and the built-in ones that occur) *)

Inductive exn : Type :=
| AttributeError (msg : string)
| KeyError (msg : string)
| IndexError (msg : string)
| RuntimeError (msg : string)
| TypeError_ (cls : string) (msg : string)   (* TypeError and its subclasses, by class name *)
| Exception_ (cls : string) (msg : string).  (* Exception and its other subclasses *)

(* class RpwException(Exception) *)
Definition RpwException (msg : string) : exn := Exception_ "RpwException" msg.

(* class RpwTypeError(TypeError):
     msg = 'expected [{}], got [{}]'.format(type_expected, type_received)
   The arguments are taken already converted by str(). *)
Definition RpwTypeError (type_expected type_received : string) : exn :=
  TypeError_ "RpwTypeError"
    ("expected [" +:+ type_expected +:+ "], got [" +:+ type_received +:+ "]").

(* base.py and ui/selection.py import the two classes above under the names
   RPW_Exception and RPW_TypeError. *)
Definition RPW_Exception := RpwException.
Definition RPW_TypeError := RpwTypeError.

Definition is_KeyError (e : exn) : bool :=
  match e with KeyError _ => true | _ => false end.

(** ** The host world *)

(* An attribute of a host object: either it holds a value, or its accessor
   raises when it is touched. *)
Inductive slot : Type :=
| Plain (v : pyval)
| Faulty (e : exn).

Record obj : Type := {
  o_class : string;               (* name of type(o) *)
  o_bases : list string;          (* names of the classes it derives from *)
  o_ToString : string;            (* what o.ToString() returns *)
  o_attrs : gmap string slot
}.

Record world : Type := {
  heap : gmap loc obj;
  selection : list Z;             (* identifiers held by uidoc.Selection, in order *)
  document : gset Z;              (* identifiers of the elements of doc *)
  stdout : list string            (* lines printed, oldest first *)
}.

Definition set_heap (h : gmap loc obj) (σ : world) : world :=
  {| heap := h; selection := selection σ; document := document σ;
     stdout := stdout σ |}.
Definition set_selection (ids : list Z) (σ : world) : world :=
  {| heap := heap σ; selection := ids; document := document σ;
     stdout := stdout σ |}.
Definition add_stdout (line : string) (σ : world) : world :=
  {| heap := heap σ; selection := selection σ; document := document σ;
     stdout := stdout σ ++ [line] |}.

(** ** The monad: state and exceptions *)

Inductive result (A : Type) : Type :=
| Ok (a : A)
| Raise (e : exn).
Arguments Ok {A} a.
Arguments Raise {A} e.

Definition M (A : Type) : Type := world → result A * world.

Definition ret {A} (a : A) : M A := λ σ, (Ok a, σ).
Definition raise {A} (e : exn) : M A := λ σ, (Raise e, σ).
Definition bind {A B} (m : M A) (k : A → M B) : M B :=
  λ σ, match m σ with
       | (Ok a, σ') => k a σ'
       | (Raise e, σ') => (Raise e, σ')
       end.
Definition get_world : M world := λ σ, (Ok σ, σ).
Definition modify_world (f : world → world) : M unit := λ σ, (Ok tt, f σ).

(* try: m  except <handles>: handler *)
Definition try_except {A} (m : M A) (handles : exn → bool) (handler : M A) : M A :=
  λ σ, match m σ with
       | (Ok a, σ') => (Ok a, σ')
       | (Raise e, σ') => if handles e then handler σ' else (Raise e, σ')
       end.

Notation "'let*' x ':=' m 'in' k" := (bind m (λ x, k))
  (at level 10, x name, m at level 100, k at level 200).
Notation "m ';;' k" := (bind m (λ _, k))
  (at level 100, k at level 200, right associativity).

(** ** Built-in operations of the language *)

(* type(v).__name__, and the classes v is an instance of *)
Definition type_name (h : gmap loc obj) (v : pyval) : string :=
  match v with
  | VNone => "NoneType"
  | VInt _ => "int"
  | VStr _ => "str"
  | VList _ => "list"
  | VElementId _ => "ElementId"
  | VElement _ => "Element"
  | VSelection => "Selection"
  | VMember _ _ => "builtin_function_or_method"
  | VObj l => match h !! l with Some o => o_class o | None => "" end
  end.

(* the classes above type(v): those the host object records, and object,
   from which every class derives *)
Definition bases (h : gmap loc obj) (v : pyval) : list string :=
  match v with
  | VObj l =>
      match h !! l with Some o => o_bases o ++ ["object"] | None => ["object"] end
  | _ => ["object"]
  end.

Definition isinstance (h : gmap loc obj) (v : pyval) (cls : string) : bool :=
  bool_decide (cls ∈ type_name h v :: bases h v).

(* bool(v): None, 0, '' and [] are false, every other value here is true *)
Definition truthy (v : pyval) : bool :=
  match v with
  | VNone => false
  | VInt n => negb (Z.eqb n 0)
  | VStr s => negb (String.eqb s "")
  | VList items => match items with [] => false | _ => true end
  | _ => true
  end.

(* v == w: by value on the immutable kinds, by identity on host objects *)
Fixpoint py_eq (v w : pyval) : bool :=
  match v, w with
  | VNone, VNone => true
  | VInt a, VInt b => Z.eqb a b
  | VStr a, VStr b => String.eqb a b
  | VList a, VList b =>
      (fix eq_items (a b : list pyval) : bool :=
         match a, b with
         | [], [] => true
         | x :: a', y :: b' => py_eq x y && eq_items a' b'
         | _, _ => false
         end) a b
  | VElementId a, VElementId b => Z.eqb a b
  | VElement a, VElement b => Z.eqb a b
  | VSelection, VSelection => true
  | VMember o a, VMember p b => String.eqb o p && String.eqb a b
  | VObj a, VObj b => bool_decide (a = b)
  | _, _ => false
  end.

(* seq[i] on a list: negative indices count from the end *)
Definition py_getitem (items : list pyval) (i : Z) : M pyval :=
  let n := Z.of_nat (length items) in
  let j := if i <? 0 then i + n else i in
  if (0 <=? j) && (j <? n)
  then match items !! Z.to_nat j with
       | Some v => ret v
       | None => raise (IndexError "list index out of range")
       end
  else raise (IndexError "list index out of range").

(* getattr(v, attr) *)
Definition getattr (v : pyval) (attr : string) : M pyval :=
  λ σ, match v with
       | VObj l =>
           match heap σ !! l with
           | Some o =>
               match o_attrs o !! attr with
               | Some (Plain x) => (Ok x, σ)
               | Some (Faulty e) => (Raise e, σ)
               | None => (Raise (AttributeError attr), σ)
               end
           | None => (Raise (AttributeError attr), σ)
           end
       | VElement id =>
           if String.eqb attr "Id" then (Ok (VElementId id), σ)
           else (Raise (AttributeError attr), σ)
       | VElementId n =>
           if String.eqb attr "IntegerValue" then (Ok (VInt n), σ)
           else (Raise (AttributeError attr), σ)
       | VSelection =>
           if String.eqb attr "GetElementIds" || String.eqb attr "SetElementIds"
           then (Ok (VMember "Selection" attr), σ)
           else (Raise (AttributeError attr), σ)
       | _ => (Raise (AttributeError attr), σ)
       end.

(* hasattr(v, attr): the interpreter the library runs in (IronPython 2.7)
   answers False whenever the lookup raises, whatever it raises *)
Definition hasattr (v : pyval) (attr : string) : M bool :=
  λ σ, match getattr v attr σ with
       | (Ok _, σ') => (Ok true, σ')
       | (Raise _, σ') => (Ok false, σ')
       end.

(* v.__setattr__(attr, value) on a host object *)
Definition host_setattr (v : pyval) (attr : string) (value : pyval) : M unit :=
  λ σ, match v with
       | VObj l =>
           match heap σ !! l with
           | Some o =>
               match o_attrs o !! attr with
               | Some (Plain _) =>
                   let o' := {| o_class := o_class o; o_bases := o_bases o;
                                o_ToString := o_ToString o;
                                o_attrs := <[attr := Plain value]> (o_attrs o) |} in
                   (Ok tt, set_heap (<[l := o']> (heap σ)) σ)
               | Some (Faulty e) => (Raise e, σ)
               | None => (Raise (AttributeError attr), σ)
               end
           | None => (Raise (AttributeError attr), σ)
           end
       | _ => (Raise (AttributeError attr), σ)
       end.

(* v.ToString() *)
Definition ToString (v : pyval) : M string :=
  λ σ, match v with
       | VObj l =>
           match heap σ !! l with
           | Some o => (Ok (o_ToString o), σ)
           | None => (Raise (AttributeError "ToString"), σ)
           end
       | VElementId n => (Ok (pretty n), σ)
       | VElement _ => (Ok "Autodesk.Revit.DB.Element", σ)
       | VSelection => (Ok "Autodesk.Revit.UI.Selection.Selection", σ)
       | _ => (Raise (AttributeError "ToString"), σ)
       end.

(* f(args) for the callables of the model: the two methods of the host's
   selection handle.  GetElementIds returns the identifiers held by the host;
   SetElementIds replaces them by the ones it is given. *)
Fixpoint ids_of (items : list pyval) : option (list Z) :=
  match items with
  | [] => Some []
  | VElementId n :: rest => option_map (cons n) (ids_of rest)
  | _ :: _ => None
  end.

Definition call (f : pyval) (args : list pyval) : M pyval :=
  λ σ, match f, args with
       | VMember "Selection" "GetElementIds", [] =>
           (Ok (VList (VElementId <$> selection σ)), σ)
       | VMember "Selection" "SetElementIds", [VList items] =>
           match ids_of items with
           | Some ids => (Ok VNone, set_selection ids σ)
           | None => (Raise (TypeError_ "TypeError" "expected ICollection[ElementId]"), σ)
           end
       | VMember _ _, _ => (Raise (TypeError_ "TypeError" "bad arguments"), σ)
       | _, _ => (Raise (TypeError_ "TypeError" "object is not callable"), σ)
       end.

(* v.name(args) *)
Definition call_method (v : pyval) (name : string) (args : list pyval) : M pyval :=
  let* f := getattr v name in call f args.

(* the items a for-loop or a comprehension draws from v *)
Definition iter (v : pyval) : M (list pyval) :=
  match v with
  | VList items => ret items
  | _ => raise (TypeError_ "TypeError" "object is not iterable")
  end.

(* List[DB.ElementId](items), and List[DB.ElementId]() for items = [] *)
Definition List_ElementId (items : list pyval) : M pyval :=
  match ids_of items with
  | Some _ => ret (VList items)
  | None => raise (TypeError_ "TypeError" "expected ElementId")
  end.

(* DB.ElementId(e) *)
Definition DB_ElementId (e : pyval) : M pyval :=
  match e with
  | VInt n => ret (VElementId n)
  | _ => raise (TypeError_ "TypeError" "expected int")
  end.

(* doc.GetElement(eid): the element of that identifier, None when the
   document has none *)
Definition doc_GetElement (eid : pyval) : M pyval :=
  λ σ, match eid with
       | VElementId n =>
           (Ok (if bool_decide (n ∈ document σ) then VElement n else VNone), σ)
       | _ => (Raise (TypeError_ "TypeError" "expected ElementId"), σ)
       end.

(* uidoc.Selection *)
Definition uidoc_Selection : pyval := VSelection.

(* [f(x) for x in items] *)
Fixpoint comprehension {A B} (f : A → M B) (items : list A) : M (list B) :=
  match items with
  | [] => ret []
  | x :: rest =>
      let* y := f x in
      let* ys := comprehension f rest in
      ret (y :: ys)
  end.

(** ** rpw/base.py *)

(* The wrapper classes: the one of ui/selection.py, and any subclass of
   BaseObjectWrapper that only declares its _revit_object_class. *)
Inductive wclass : Type :=
| Selection
| Wrapper (name : string) (revit_object_class : string).

Definition c_name (cls : wclass) : string :=
  match cls with Selection => "Selection" | Wrapper name _ => name end.

(* cls._revit_object_class; Selection declares UI.Selection.Selection *)
Definition c_revit_object_class (cls : wclass) : string :=
  match cls with Selection => "Selection" | Wrapper _ c => c end.

(* the names the class defines as properties (all of them without setter) *)
Definition c_properties (cls : wclass) : list string :=
  match cls with Selection => ["element_ids"; "elements"] | Wrapper _ _ => [] end.

(* A wrapper instance: its class and its __dict__. *)
Record wrapper : Type := {
  w_class : wclass;
  w_dict : gmap string pyval
}.

(* cls.__new__(cls) *)
Definition new (cls : wclass) : wrapper := {| w_class := cls; w_dict := ∅ |}.

(* object.__setattr__(self, attr, value) *)
Definition object___setattr__ (self : wrapper) (attr : string) (value : pyval)
  : M wrapper :=
  if bool_decide (attr ∈ c_properties (w_class self))
  then raise (AttributeError "can't set attribute")
  else ret {| w_class := w_class self; w_dict := <[attr := value]> (w_dict self) |}.

(* BaseObjectWrapper.__init__(self, revit_object); the classes are shown in
   the message by their names *)
Definition BaseObjectWrapper___init__ (self : wrapper) (revit_object : pyval)
  : M wrapper :=
  let _revit_object_class := c_revit_object_class (w_class self) in
  let* σ := get_world in
  if negb (isinstance (heap σ) revit_object _revit_object_class)
  then modify_world (add_stdout (c_name (w_class self))) ;;
       raise (RPW_TypeError _revit_object_class (type_name (heap σ) revit_object))
  else object___setattr__ self "_revit_object" revit_object.

(* self.__dict__[key] *)
Definition dict_item (self : wrapper) (key : string) : M pyval :=
  match w_dict self !! key with
  | Some v => ret v
  | None => raise (KeyError key)
  end.

Definition recursion_error : exn :=
  RuntimeError "maximum recursion depth exceeded".

(* [element_ids] of ui/selection.py, on the handle h = self._revit_object *)
Definition element_ids_of (h : pyval) : M (list pyval) :=
  let* ids := call_method h "GetElementIds" [] in
  let* items := iter ids in
  comprehension ret items.

(* '<rpw:{class_name} % {revit_object} | {data}>'.format(...) *)
Definition repr_format (class_name revit_object data : string) : string :=
  "<rpw:" +:+ class_name +:+ " % " +:+ revit_object +:+ " | " +:+ data +:+ ">".

(* __getattr__, the expression self._revit_object, __repr__ and
   '{}'.format(self) call one another; [depth] is the number of nested calls
   the interpreter still allows. *)
Fixpoint BaseObjectWrapper___getattr__ (depth : nat) (self : wrapper)
    (attr : string) : M pyval :=
  match depth with
  | O => raise recursion_error
  | S d =>
      try_except
        (let* h := dict_item self "_revit_object" in getattr h attr)
        is_KeyError
        (let* s := format_self d self in
         raise (RPW_Exception
                  ("BaseObjectWrapper is missing _revit_object: " +:+ s)))
  end
(* self._revit_object: found in the instance, else __getattr__ is asked *)
with self__revit_object (depth : nat) (self : wrapper) : M pyval :=
  match w_dict self !! "_revit_object" with
  | Some h => ret h
  | None =>
      match depth with
      | O => raise recursion_error
      | S d => BaseObjectWrapper___getattr__ d self "_revit_object"
      end
  end
with BaseObjectWrapper___repr__ (depth : nat) (self : wrapper) (data : string)
    : M string :=
  match depth with
  | O => raise recursion_error
  | S d =>
      let* h := self__revit_object d self in
      let* revit_object_name := ToString h in
      ret (repr_format (c_name (w_class self)) revit_object_name data)
  end
(* type(self).__repr__(self); Selection overrides it to pass len(self) *)
with format_self (depth : nat) (self : wrapper) : M string :=
  match depth with
  | O => raise recursion_error
  | S d =>
      match w_class self with
      | Selection =>
          let* h := self__revit_object d self in
          let* ids := element_ids_of h in
          BaseObjectWrapper___repr__ d self (pretty (length ids))
      | Wrapper _ _ => BaseObjectWrapper___repr__ d self ""
      end
  end.

(* sys.getrecursionlimit() *)
Definition recursion_limit : nat := 1000.

(* BaseObjectWrapper.__setattr__(self, attr, value) *)
Definition BaseObjectWrapper___setattr__ (self : wrapper) (attr : string)
    (value : pyval) : M wrapper :=
  let* h := self__revit_object recursion_limit self in
  let* exposed := hasattr h attr in
  if exposed
  then let* h := self__revit_object recursion_limit self in
       host_setattr h attr value ;; ret self
  else object___setattr__ self attr value.

(* BaseObjectWrapper.unwrap(self) *)
Definition unwrap (self : wrapper) : M pyval :=
  self__revit_object recursion_limit self.

(* cls(revit_object) for a subclass that keeps the inherited __init__ *)
Definition wrap (cls : wclass) (revit_object : pyval) : M wrapper :=
  BaseObjectWrapper___init__ (new cls) revit_object.

(** ** rpw/ui/selection.py *)

(* isinstance(e, DB.ElementId), isinstance(e, DB.Element) and
   isinstance(e, int): the instances of these classes are the values of the
   corresponding kind *)
Definition is_ElementId (e : pyval) : bool :=
  match e with VElementId _ => true | _ => false end.
Definition is_Element (e : pyval) : bool :=
  match e with VElement _ => true | _ => false end.
Definition is_int (e : pyval) : bool :=
  match e with VInt _ => true | _ => false end.

(* the first two statements of add: a value that is not an instance of
   list becomes the list of that value *)
Definition as_list (elements_or_ids : pyval) : list pyval :=
  match elements_or_ids with
  | VList items => items
  | e => [e]
  end.

(* the if/elif/else chain of add (lines 63 to 70), which computes its
   local element_ids or raises *)
Definition add_element_ids (elements_or_ids : list pyval) : M (list pyval) :=
  if forallb is_ElementId elements_or_ids then
    ret elements_or_ids
  else if forallb is_Element elements_or_ids then
    comprehension (λ e, getattr e "Id") elements_or_ids
  else if forallb is_int elements_or_ids then
    comprehension DB_ElementId elements_or_ids
  else
    let* first := py_getitem elements_or_ids 0 in
    let* σ := get_world in
    raise (RPW_TypeError "list" (type_name (heap σ) first)).

(* Selection.add(self, elements_or_ids) *)
Definition Selection_add (self : wrapper) (elements_or_ids : pyval) : M unit :=
  let elements_or_ids := as_list elements_or_ids in
  let* element_ids := add_element_ids elements_or_ids in
  let* ids := call_method uidoc_Selection "GetElementIds" [] in
  let* items := iter ids in
  let* current_selection := comprehension ret items in
  let new_selection := (element_ids ++ current_selection)%list in
  let* collection := List_ElementId new_selection in
  call_method uidoc_Selection "SetElementIds" [collection] ;;
  ret tt.

(* Selection.__init__(self, elements=None) *)
Definition Selection___init__ (self : wrapper) (elements : pyval) : M wrapper :=
  let* self := BaseObjectWrapper___init__ self uidoc_Selection in
  if truthy elements
  then Selection_add self elements ;; ret self
  else ret self.

(* Selection(elements) *)
Definition Selection_new (elements : pyval) : M wrapper :=
  Selection___init__ (new Selection) elements.

(* Selection.element_ids *)
Definition Selection_element_ids (self : wrapper) : M (list pyval) :=
  let* h := self__revit_object recursion_limit self in
  element_ids_of h.

(* Selection.elements *)
Definition Selection_elements (self : wrapper) : M (list pyval) :=
  let* ids := Selection_element_ids self in
  comprehension doc_GetElement ids.

(* Selection.clear(self) *)
Definition Selection_clear (self : wrapper) : M unit :=
  let* collection := List_ElementId [] in
  call_method uidoc_Selection "SetElementIds" [collection] ;;
  ret tt.

(* Selection.__getitem__(self, index) *)
Definition Selection___getitem__ (self : wrapper) (index : Z) : M pyval :=
  let* elements := Selection_elements self in
  py_getitem elements index.

(* Selection.__contains__(self, element_reference); to_element_ids comes
   from rpw.utils.coerce and is a parameter here *)
Definition Selection___contains__ (to_element_ids : pyval → M (list pyval))
    (self : wrapper) (element_reference : pyval) : M bool :=
  let* element_ids := to_element_ids element_reference in
  if negb (length element_ids =? 1)%nat
  then let* σ := get_world in
       raise (RPW_TypeError "element_reference"
                (type_name (heap σ) element_reference))
  else let* element_id := py_getitem element_ids 0 in
       let* ids := Selection_element_ids self in
       ret (existsb (λ e, py_eq e element_id) ids).

(* Selection.__bool__(self) *)
Definition Selection___bool__ (self : wrapper) : M bool :=
  let* elements := Selection_elements self in
  ret (truthy (VList elements)).

(* Selection.__len__(self) *)
Definition Selection___len__ (self : wrapper) : M nat :=
  let* ids := Selection_element_ids self in
  ret (length ids).

(* Selection.__repr__(self) *)
Definition Selection___repr__ (self : wrapper) : M string :=
  let* n := Selection___len__ self in
  BaseObjectWrapper___repr__ recursion_limit self (pretty n).

(** Modelled from the spec: [to_element_ids] of rpw.utils.coerce, which is
    not among the sources.  The spec has a reference normalised to a
    sequence of identifiers, from the same three variants as [add]: a raw
    identifier value, an element reference (mapped to its identifier) or an
    identifier object; a value that is not a list counts as the list of
    that value, and anything else is a type error. *)
Definition to_element_id (σ : world) (e : pyval) : M pyval :=
  match e with
  | VInt n => ret (VElementId n)
  | VElement id => ret (VElementId id)
  | VElementId n => ret (VElementId n)
  | _ => raise (RPW_TypeError "Element, ElementId, or int" (type_name (heap σ) e))
  end.

Definition to_element_ids (element_references : pyval) : M (list pyval) :=
  let* σ := get_world in
  comprehension (to_element_id σ) (as_list element_references).

(** ** Sample worlds and small runs *)

Definition empty_world : world :=
  {| heap := ∅; selection := []; document := ∅; stdout := [] |}.

(* A document with the elements 1, 2 and 3, of which 3 is selected. *)
Definition sample_world : world :=
  {| heap := ∅; selection := [3]; document := {[1; 2; 3]}; stdout := [] |}.

(* A wall object whose Pinned property works and whose Broken property
   raises KeyError when read. *)
Definition wall : obj :=
  {| o_class := "Wall"; o_bases := ["Element_"; "object"];
     o_ToString := "Autodesk.Revit.DB.Wall";
     o_attrs := {[ "Pinned" := Plain (VInt 0);
                   "Broken" := Faulty (KeyError "missing") ]} |}.

Definition wall_world : world :=
  {| heap := {[ 1%positive := wall ]}; selection := []; document := ∅;
     stdout := [] |}.

Definition WallWrapper : wclass := Wrapper "WallWrapper" "Wall".

(* The wrapper every successful Selection(...) yields: an instance whose
   only attribute is the host's selection handle. *)
Definition host_selection : wrapper :=
  {| w_class := Selection; w_dict := {[ "_revit_object" := VSelection ]} |}.

(* The elements the identifiers of the host selection resolve to. *)
Definition resolve (σ : world) (n : Z) : pyval :=
  if bool_decide (n ∈ document σ) then VElement n else VNone.

(* The three kinds of input add accepts, and the value of each kind that
   stands for the identifier n. *)
Inductive kind : Type := KElementId | KElement | KInt.

Definition inject (k : kind) (n : Z) : pyval :=
  match k with
  | KElementId => VElementId n
  | KElement => VElement n
  | KInt => VInt n
  end.

(** ** The class hierarchy of rpw/exceptions.py *)

(* The exception classes the module declares and the built-in classes they
   are declared over. *)
Inductive exc_class : Type :=
| C_Exception
| C_TypeError
| C_ValueError
| C_KeyError
| C_AttributeError
| C_IndexError
| C_RuntimeError
| C_RpwException
| C_RpwTypeError
| C_RpwValueError
| C_RpwParameterNotFound
| C_RpwWrongStorageType
| C_RpwCoerceError.

Definition exc_class_eqb (c d : exc_class) : bool :=
  match c, d with
  | C_Exception, C_Exception | C_TypeError, C_TypeError
  | C_ValueError, C_ValueError | C_KeyError, C_KeyError
  | C_AttributeError, C_AttributeError | C_IndexError, C_IndexError
  | C_RuntimeError, C_RuntimeError | C_RpwException, C_RpwException
  | C_RpwTypeError, C_RpwTypeError | C_RpwValueError, C_RpwValueError
  | C_RpwParameterNotFound, C_RpwParameterNotFound
  | C_RpwWrongStorageType, C_RpwWrongStorageType
  | C_RpwCoerceError, C_RpwCoerceError => true
  | _, _ => false
  end.

(* The bases each class statement names; the built-in exception classes
   derive from Exception (through intermediate built-in classes, left out). *)
Definition class_bases (c : exc_class) : list exc_class :=
  match c with
  | C_Exception => []
  | C_TypeError | C_ValueError | C_KeyError | C_AttributeError
  | C_IndexError | C_RuntimeError => [C_Exception]
  | C_RpwException => [C_Exception]               (* RpwException(Exception) *)
  | C_RpwTypeError => [C_TypeError]               (* RpwTypeError(TypeError) *)
  | C_RpwValueError => [C_ValueError]             (* RpwValueError(ValueError) *)
  | C_RpwParameterNotFound => [C_RpwException; C_KeyError]
  | C_RpwWrongStorageType => [C_RpwException; C_TypeError]
  | C_RpwCoerceError => [C_RpwException; C_ValueError]
  end.

(* issubclass(c, d), looking at most [depth] class statements up *)
Fixpoint issubclass_upto (depth : nat) (c d : exc_class) : bool :=
  exc_class_eqb c d
  || match depth with
     | O => false
     | S n => existsb (λ b, issubclass_upto n b d) (class_bases c)
     end.

(* issubclass(c, d): no class above is more than three statements away *)
Definition issubclass (c d : exc_class) : bool := issubclass_upto 3 c d.

(* type(e) for the exceptions the wrappers raise *)
Definition class_of (e : exn) : exc_class :=
  match e with
  | AttributeError _ => C_AttributeError
  | KeyError _ => C_KeyError
  | IndexError _ => C_IndexError
  | RuntimeError _ => C_RuntimeError
  | TypeError_ cls _ =>
      if String.eqb cls "RpwTypeError" then C_RpwTypeError else C_TypeError
  | Exception_ cls _ =>
      if String.eqb cls "RpwException" then C_RpwException else C_Exception
  end.

(* the test of the clause [except c:] *)
Definition except (c : exc_class) (e : exn) : bool := issubclass (class_of e) c.

(** * Properties *)

(** ** The monad and the built-in operations *)

Lemma bind_run {A B} (m : M A) (k : A → M B) σ :
  bind m k σ = match m σ with
               | (Ok a, σ') => k a σ'
               | (Raise e, σ') => (Raise e, σ')
               end.
Proof. reflexivity. Qed.

Lemma bind_ok {A B} (m : M A) (k : A → M B) σ a σ' :
  m σ = (Ok a, σ') → bind m k σ = k a σ'.
Proof. intros H. rewrite bind_run, H. reflexivity. Qed.

Lemma bind_raise {A B} (m : M A) (k : A → M B) σ e σ' :
  m σ = (Raise e, σ') → bind m k σ = (Raise e, σ').
Proof. intros H. rewrite bind_run, H. reflexivity. Qed.

Lemma comprehension_ret {A} (items : list A) σ :
  comprehension ret items σ = (Ok items, σ).
Proof.
  induction items as [|x rest IH]; [reflexivity|].
  cbn [comprehension]. rewrite (bind_ok _ _ σ x σ) by reflexivity.
  rewrite (bind_ok _ _ σ rest σ IH). reflexivity.
Qed.

(* A comprehension whose body is a pure function of the item. *)
Lemma comprehension_pure {A B} (f : A → M B) (g : A → B) (items : list A) σ :
  (∀ x, x ∈ items → f x σ = (Ok (g x), σ)) →
  comprehension f items σ = (Ok (g <$> items), σ).
Proof.
  induction items as [|x rest IH]; intros Hf; [reflexivity|].
  cbn [comprehension].
  rewrite (bind_ok _ _ σ (g x) σ) by (apply Hf; left).
  rewrite (bind_ok _ _ σ (g <$> rest) σ) by (apply IH; intros; apply Hf; by right).
  reflexivity.
Qed.

Lemma ids_of_ElementIds (ns : list Z) : ids_of (VElementId <$> ns) = Some ns.
Proof.
  induction ns as [|n ns IH]; [reflexivity|].
  cbn. change (map VElementId ns) with (VElementId <$> ns).
  rewrite IH. reflexivity.
Qed.

Lemma GetElementIds_run σ :
  call_method uidoc_Selection "GetElementIds" [] σ
  = (Ok (VList (VElementId <$> selection σ)), σ).
Proof. reflexivity. Qed.

Lemma SetElementIds_run (ns : list Z) σ :
  call_method uidoc_Selection "SetElementIds" [VList (VElementId <$> ns)] σ
  = (Ok VNone, set_selection ns σ).
Proof.
  unfold call_method. rewrite bind_run. cbn.
  change (map VElementId ns) with (VElementId <$> ns).
  rewrite ids_of_ElementIds. reflexivity.
Qed.

Lemma element_ids_of_host σ :
  element_ids_of VSelection σ = (Ok (VElementId <$> selection σ), σ).
Proof.
  unfold element_ids_of.
  rewrite (bind_ok _ _ _ _ _ (GetElementIds_run σ)).
  rewrite (bind_ok _ _ σ (VElementId <$> selection σ) σ) by reflexivity.
  apply comprehension_ret.
Qed.

(** ** The base wrapper *)

Lemma self__revit_object_found depth self h σ :
  w_dict self !! "_revit_object" = Some h →
  self__revit_object depth self σ = (Ok h, σ).
Proof. intros H. destruct depth; cbn; rewrite H; reflexivity. Qed.

Lemma not_a_property cls : bool_decide ("_revit_object" ∈ c_properties cls) = false.
Proof. destruct cls; reflexivity. Qed.

Lemma wrap_instance cls h σ :
  isinstance (heap σ) h (c_revit_object_class cls) = true →
  wrap cls h σ
  = (Ok {| w_class := cls; w_dict := {[ "_revit_object" := h ]} |}, σ).
Proof.
  intros Hi. unfold wrap, BaseObjectWrapper___init__.
  rewrite bind_run. cbn. rewrite Hi. cbn.
  unfold object___setattr__. cbn. rewrite not_a_property.
  rewrite insert_empty. reflexivity.
Qed.

Lemma wrap_other cls h σ :
  isinstance (heap σ) h (c_revit_object_class cls) = false →
  wrap cls h σ
  = (Raise (RPW_TypeError (c_revit_object_class cls) (type_name (heap σ) h)),
     add_stdout (c_name cls) σ).
Proof.
  intros Hi. unfold wrap, BaseObjectWrapper___init__.
  rewrite bind_run. cbn. rewrite Hi. reflexivity.
Qed.

(* What __getattr__ does once the handle is in place: the handle's answer,
   except that a KeyError becomes the wrapper's own exception. *)
Lemma getattr_forwarded d self h attr σ :
  w_dict self !! "_revit_object" = Some h →
  BaseObjectWrapper___getattr__ (S d) self attr σ
  = match getattr h attr σ with
    | (Raise (KeyError k), σ') =>
        bind (format_self d self)
          (λ s, raise (RPW_Exception
                         ("BaseObjectWrapper is missing _revit_object: " +:+ s))) σ'
    | r => r
    end.
Proof.
  intros H. cbn [BaseObjectWrapper___getattr__]. unfold try_except, dict_item.
  rewrite H. rewrite (bind_run (ret h)). cbn [ret].
  destruct (getattr h attr σ) as [[x|e] σ']; [reflexivity|].
  destruct e; reflexivity.
Qed.

(** ** The selection wrapper *)

Lemma Selection_init_run σ :
  BaseObjectWrapper___init__ (new Selection) uidoc_Selection σ
  = (Ok host_selection, σ).
Proof. apply (wrap_instance Selection VSelection σ). reflexivity. Qed.

Lemma Selection_new_run elements σ :
  Selection_new elements σ
  = if truthy elements
    then bind (Selection_add host_selection elements) (λ _, ret host_selection) σ
    else (Ok host_selection, σ).
Proof.
  unfold Selection_new, Selection___init__.
  rewrite (bind_ok _ _ _ _ _ (Selection_init_run σ)).
  destruct (truthy elements); reflexivity.
Qed.

Lemma Selection_new_inv elements σ0 s σ :
  Selection_new elements σ0 = (Ok s, σ) → s = host_selection.
Proof.
  rewrite Selection_new_run. destruct (truthy elements).
  - rewrite bind_run.
    destruct (Selection_add host_selection elements σ0) as [[u|e] σ1];
      unfold ret; congruence.
  - congruence.
Qed.

Lemma element_ids_run σ :
  Selection_element_ids host_selection σ = (Ok (VElementId <$> selection σ), σ).
Proof.
  unfold Selection_element_ids.
  rewrite (bind_ok _ _ σ VSelection σ)
    by (apply self__revit_object_found; reflexivity).
  apply element_ids_of_host.
Qed.

Lemma elements_run σ :
  Selection_elements host_selection σ = (Ok (resolve σ <$> selection σ), σ).
Proof.
  unfold Selection_elements.
  rewrite (bind_ok _ _ _ _ _ (element_ids_run σ)).
  rewrite (comprehension_pure _ (λ v, match v with
                                      | VElementId n => resolve σ n
                                      | _ => VNone
                                      end)).
  - rewrite <- list_fmap_compose. reflexivity.
  - intros x Hx. apply list_elem_of_fmap in Hx as (n & -> & _). reflexivity.
Qed.

Lemma forallb_inject (p : pyval → bool) k (ns : list Z) :
  (∀ n, p (inject k n) = true) → forallb p (inject k <$> ns) = true.
Proof.
  intros Hp. induction ns as [|n ns IH]; [reflexivity|].
  cbn. rewrite Hp. exact IH.
Qed.

Lemma add_element_ids_accepted k (ns : list Z) σ :
  add_element_ids (inject k <$> ns) σ = (Ok (VElementId <$> ns), σ).
Proof.
  unfold add_element_ids. destruct ns as [|n ns]; [reflexivity|].
  destruct k.
  - rewrite forallb_inject by reflexivity. reflexivity.
  - change (forallb is_ElementId (inject KElement <$> n :: ns)) with false.
    rewrite forallb_inject by reflexivity.
    rewrite (comprehension_pure _ (λ v, match v with
                                        | VElement i => VElementId i
                                        | _ => VNone
                                        end)).
    + rewrite <- list_fmap_compose. reflexivity.
    + intros x Hx. apply list_elem_of_fmap in Hx as (i & -> & _). reflexivity.
  - change (forallb is_ElementId (inject KInt <$> n :: ns)) with false.
    change (forallb is_Element (inject KInt <$> n :: ns)) with false.
    rewrite forallb_inject by reflexivity.
    rewrite (comprehension_pure _ (λ v, match v with
                                        | VInt i => VElementId i
                                        | _ => VNone
                                        end)).
    + rewrite <- list_fmap_compose. reflexivity.
    + intros x Hx. apply list_elem_of_fmap in Hx as (i & -> & _). reflexivity.
Qed.

(* add, once its input has been turned into identifiers *)
Lemma add_accepted self x (ns : list Z) σ :
  add_element_ids (as_list x) σ = (Ok (VElementId <$> ns), σ) →
  Selection_add self x σ = (Ok tt, set_selection (ns ++ selection σ)%list σ).
Proof.
  intros H. unfold Selection_add.
  rewrite (bind_ok _ _ _ _ _ H).
  rewrite (bind_ok _ _ _ _ _ (GetElementIds_run σ)).
  rewrite (bind_ok _ _ σ (VElementId <$> selection σ) σ) by reflexivity.
  rewrite (bind_ok _ _ _ _ _ (comprehension_ret _ σ)).
  rewrite <- fmap_app.
  rewrite (bind_ok _ _ σ (VList (VElementId <$> (ns ++ selection σ)%list)) σ)
    by (unfold List_ElementId; rewrite ids_of_ElementIds; reflexivity).
  rewrite (bind_ok _ _ _ _ _ (SetElementIds_run _ σ)).
  reflexivity.
Qed.

Lemma add_rejected self x e σ σ' :
  add_element_ids (as_list x) σ = (Raise e, σ') →
  Selection_add self x σ = (Raise e, σ').
Proof. intros H. unfold Selection_add. apply bind_raise, H. Qed.

Lemma py_getitem_in_range (items : list pyval) (i : Z) σ :
  0 ≤ i < Z.of_nat (length items) →
  ∃ v, items !! Z.to_nat i = Some v ∧ py_getitem items i σ = (Ok v, σ).
Proof.
  intros Hi. destruct (lookup_lt_is_Some_2 items (Z.to_nat i)) as [v Hv]; [lia|].
  exists v. split; [exact Hv|]. unfold py_getitem.
  replace (i <? 0) with false by lia.
  replace ((0 <=? i) && (i <? Z.of_nat (length items))) with true by lia.
  rewrite Hv. reflexivity.
Qed.

Lemma py_getitem_from_end (items : list pyval) (i : Z) σ :
  - Z.of_nat (length items) ≤ i < 0 →
  ∃ v, items !! Z.to_nat (i + Z.of_nat (length items)) = Some v
       ∧ py_getitem items i σ = (Ok v, σ).
Proof.
  intros Hi.
  destruct (lookup_lt_is_Some_2 items (Z.to_nat (i + Z.of_nat (length items))))
    as [v Hv]; [lia|].
  exists v. split; [exact Hv|]. unfold py_getitem.
  replace (i <? 0) with true by lia.
  replace ((0 <=? i + Z.of_nat (length items))
           && (i + Z.of_nat (length items) <? Z.of_nat (length items)))
    with true by lia.
  rewrite Hv. reflexivity.
Qed.

Lemma py_getitem_out_of_range (items : list pyval) (i : Z) σ :
  i < - Z.of_nat (length items) ∨ Z.of_nat (length items) ≤ i →
  py_getitem items i σ = (Raise (IndexError "list index out of range"), σ).
Proof.
  intros Hi. unfold py_getitem.
  destruct (Z.ltb_spec i 0).
  - replace ((0 <=? i + Z.of_nat (length items))
             && (i + Z.of_nat (length items) <? Z.of_nat (length items)))
      with false by lia.
    reflexivity.
  - replace ((0 <=? i) && (i <? Z.of_nat (length items))) with false by lia.
    reflexivity.
Qed.

(** ** The claims about the selection wrapper *)

(** C1: [add] turns its input into identifiers, puts them in their order in
    front of the identifiers the host selection holds, duplicates included,
    and makes the host hold exactly that sequence; [element_ids] of a
    selection built afterwards is that sequence: the new identifiers, then
    the earlier ones.  The input is a list of identifiers, of elements or of
    integers, or a single one of them. *)
Theorem add_prepends_new_ids (self : wrapper) (k : kind) (ns : list Z) (n : Z)
    (σ : world) :
  let σ' := set_selection (ns ++ selection σ)%list σ in
  Selection_add self (VList (inject k <$> ns)) σ = (Ok tt, σ')
  ∧ Selection_add self (inject k n) σ
    = (Ok tt, set_selection (n :: selection σ) σ)
  ∧ (let* s := Selection_new VNone in Selection_element_ids s) σ'
    = (Ok ((VElementId <$> ns) ++ (VElementId <$> selection σ))%list, σ')
  ∧ (Selection_add self (VList (inject k <$> ns)) ;;
     let* s := Selection_new VNone in Selection_element_ids s) σ
    = (Ok ((VElementId <$> ns) ++ (VElementId <$> selection σ))%list, σ').
Proof.
  intros σ'.
  assert (Hadd : Selection_add self (VList (inject k <$> ns)) σ = (Ok tt, σ'))
    by (apply add_accepted, add_element_ids_accepted).
  assert (Hids : (let* s := Selection_new VNone in Selection_element_ids s) σ'
                 = (Ok ((VElementId <$> ns) ++ (VElementId <$> selection σ))%list, σ')).
  { rewrite (bind_ok _ _ σ' host_selection σ')
      by (rewrite Selection_new_run; reflexivity).
    rewrite element_ids_run. cbn [selection σ' set_selection].
    rewrite fmap_app. reflexivity. }
  split_and!.
  - exact Hadd.
  - apply (add_accepted self (inject k n) [n]).
    destruct k; apply (add_element_ids_accepted _ [n]).
  - exact Hids.
  - rewrite (bind_ok _ _ _ _ _ Hadd). exact Hids.
Qed.

(** C2, as amended: when the input of [add] is neither all identifiers, nor
    all elements, nor all integers, [add] raises the type error of the
    library, and the error names the type of the first element of the
    sequence (the one at index 0); the host selection is left as it was. *)
Theorem add_mixed_names_first_element (self : wrapper) (x : pyval) (σ : world) :
  forallb is_ElementId (as_list x) = false →
  forallb is_Element (as_list x) = false →
  forallb is_int (as_list x) = false →
  ∃ first rest,
    as_list x = first :: rest
    ∧ Selection_add self x σ
      = (Raise (TypeError_ "RpwTypeError"
                  ("expected [list], got [" +:+ type_name (heap σ) first +:+ "]")),
         σ).
Proof.
  intros H1 H2 H3.
  destruct (as_list x) as [|first rest] eqn:Hx; [discriminate|].
  exists first, rest. split; [reflexivity|].
  apply add_rejected. rewrite Hx. unfold add_element_ids.
  rewrite H1, H2, H3. reflexivity.
Qed.

Lemma add_mixed_names_first_element_witness :
  ∃ first rest,
    as_list (VList [VElement 1; VElementId 2]) = first :: rest
    ∧ Selection_add host_selection (VList [VElement 1; VElementId 2]) sample_world
      = (Raise (TypeError_ "RpwTypeError"
                  ("expected [list], got ["
                   +:+ type_name (heap sample_world) first +:+ "]")),
         sample_world).
Proof.
  apply (add_mixed_names_first_element host_selection
           (VList [VElement 1; VElementId 2]) sample_world); reflexivity.
Defined.

(** C2, as stated, fails: in the sequence of an identifier followed by a
    string, the identifier is of an accepted kind and the string is of none,
    so the string is the first offending element; the error names the type
    of the identifier and not the type of the string. *)
Lemma add_names_first_not_offending :
  is_ElementId (VElementId 1) = true
  ∧ is_ElementId (VStr "x") || is_Element (VStr "x") || is_int (VStr "x") = false
  ∧ Selection_add host_selection (VList [VElementId 1; VStr "x"]) empty_world
    = (Raise (RPW_TypeError "list" "ElementId"), empty_world)
  ∧ RPW_TypeError "list" "ElementId"
    ≠ RPW_TypeError "list" (type_name (heap empty_world) (VStr "x")).
Proof. split_and!; [reflexivity..|discriminate]. Qed.

(** C9: whatever the host selection holds, [clear] makes it hold the empty
    sequence; right after, the length of the selection is 0 and its truth
    value is false. *)
Theorem clear_empties_selection (elements : pyval) (σ0 : world) (s : wrapper)
    (σ : world) :
  Selection_new elements σ0 = (Ok s, σ) →
  let σ' := set_selection [] σ in
  Selection_clear s σ = (Ok tt, σ')
  ∧ selection σ' = []
  ∧ Selection___len__ s σ' = (Ok 0%nat, σ')
  ∧ Selection___bool__ s σ' = (Ok false, σ')
  ∧ (Selection_clear s ;; let* t := Selection_new VNone in Selection___len__ t) σ
    = (Ok 0%nat, σ').
Proof.
  intros Hs σ'. apply Selection_new_inv in Hs as ->.
  assert (Hclear : Selection_clear host_selection σ = (Ok tt, σ')) by reflexivity.
  assert (Hlen : Selection___len__ host_selection σ' = (Ok 0%nat, σ')).
  { unfold Selection___len__.
    rewrite (bind_ok _ _ _ _ _ (element_ids_run σ')). reflexivity. }
  split_and!.
  - exact Hclear.
  - reflexivity.
  - exact Hlen.
  - unfold Selection___bool__.
    rewrite (bind_ok _ _ _ _ _ (elements_run σ')). reflexivity.
  - rewrite (bind_ok _ _ _ _ _ Hclear).
    rewrite (bind_ok _ _ σ' host_selection σ')
      by (rewrite Selection_new_run; reflexivity).
    exact Hlen.
Qed.

Lemma clear_empties_selection_witness :
  let σ' := set_selection [] sample_world in
  Selection_clear host_selection sample_world = (Ok tt, σ')
  ∧ selection σ' = []
  ∧ Selection___len__ host_selection σ' = (Ok 0%nat, σ')
  ∧ Selection___bool__ host_selection σ' = (Ok false, σ')
  ∧ (Selection_clear host_selection ;;
     let* t := Selection_new VNone in Selection___len__ t) sample_world
    = (Ok 0%nat, σ').
Proof.
  apply (clear_empties_selection VNone sample_world host_selection sample_world).
  reflexivity.
Defined.

(** C10: when the argument of [Selection(...)] is false as a truth value,
    as the empty list and the integer 0 are, the constructor does not call
    [add]: it returns the selection wrapper without an error and the host
    selection, like the rest of the world, is what it was.  (For the
    integer 0, [add] itself would have put identifier 0 in front.) *)
Theorem falsy_argument_skips_merge (elements : pyval) (σ : world) :
  truthy elements = false →
  Selection_new elements σ = (Ok host_selection, σ)
  ∧ truthy (VList []) = false
  ∧ truthy (VInt 0) = false
  ∧ Selection_add host_selection (VInt 0) σ
    = (Ok tt, set_selection (0 :: selection σ) σ).
Proof.
  intros Hf. split_and!.
  - rewrite Selection_new_run, Hf. reflexivity.
  - reflexivity.
  - reflexivity.
  - apply (add_accepted host_selection (VInt 0) [0]).
    apply (add_element_ids_accepted KInt [0]).
Qed.

Lemma falsy_argument_skips_merge_witness :
  Selection_new (VInt 0) sample_world = (Ok host_selection, sample_world)
  ∧ truthy (VList []) = false
  ∧ truthy (VInt 0) = false
  ∧ Selection_add host_selection (VInt 0) sample_world
    = (Ok tt, set_selection (0 :: selection sample_world) sample_world).
Proof.
  apply (falsy_argument_skips_merge (VInt 0) sample_world). reflexivity.
Defined.

(** C8: [selection[i]] is the item of index i of the resolved elements
    (counted from the end when i is negative, as for any list), and an
    index out of bounds raises the list's own IndexError: there is no check
    of the bounds before, and no None in place of the missing item. *)
Theorem getitem_indexes_elements (elements : pyval) (σ0 : world) (s : wrapper)
    (σ : world) (i : Z) :
  Selection_new elements σ0 = (Ok s, σ) →
  let es := resolve σ <$> selection σ in
  let n := Z.of_nat (length es) in
  Selection___getitem__ s i σ = py_getitem es i σ
  ∧ (0 ≤ i < n →
     ∃ v, es !! Z.to_nat i = Some v ∧ Selection___getitem__ s i σ = (Ok v, σ))
  ∧ (- n ≤ i < 0 →
     ∃ v, es !! Z.to_nat (i + n) = Some v
          ∧ Selection___getitem__ s i σ = (Ok v, σ))
  ∧ (i < - n ∨ n ≤ i →
     Selection___getitem__ s i σ
     = (Raise (IndexError "list index out of range"), σ)).
Proof.
  intros Hs es n. apply Selection_new_inv in Hs as ->.
  assert (Hget : Selection___getitem__ host_selection i σ = py_getitem es i σ).
  { unfold Selection___getitem__.
    rewrite (bind_ok _ _ _ _ _ (elements_run σ)). reflexivity. }
  rewrite Hget. split_and!.
  - reflexivity.
  - apply py_getitem_in_range.
  - apply py_getitem_from_end.
  - apply py_getitem_out_of_range.
Qed.

Lemma getitem_indexes_elements_witness :
  Selection___getitem__ host_selection 1 sample_world
  = (Raise (IndexError "list index out of range"), sample_world).
Proof.
  apply (getitem_indexes_elements VNone sample_world host_selection sample_world 1).
  - reflexivity.
  - right. cbn. lia.
Defined.

Lemma existsb_py_eq_absent (id : Z) (ns : list Z) :
  id ∉ ns → existsb (λ e, py_eq e (VElementId id)) (VElementId <$> ns) = false.
Proof.
  induction ns as [|n ns IH]; intros Hid; [reflexivity|].
  apply not_elem_of_cons in Hid as [Hne Hid]. cbn.
  replace (n =? id) with false by lia. apply IH, Hid.
Qed.

(** C7, as amended: [reference in selection] first has [to_element_ids]
    turn the reference into a sequence of identifiers; when that sequence
    has no item or more than one, it raises the type error of the library,
    and otherwise it answers whether the one identifier is equal to some
    identifier of [element_ids].  In particular, with a [to_element_ids]
    that maps an element to its identifier, [e in Selection([e])] is true,
    and [e2 in Selection([e])] is false for another element e2 that the
    host selection did not hold before. *)
Theorem contains_single_identifier (to_ids : pyval → M (list pyval))
    (Helement : ∀ e σ, to_ids (VElement e) σ = (Ok [VElementId e], σ)) :
  (∀ elements σ0 s σ r ids σ1,
     Selection_new elements σ0 = (Ok s, σ) →
     to_ids r σ = (Ok ids, σ1) →
     (length ids ≠ 1%nat →
      Selection___contains__ to_ids s r σ
      = (Raise (TypeError_ "RpwTypeError"
                  ("expected [element_reference], got ["
                   +:+ type_name (heap σ1) r +:+ "]")), σ1))
     ∧ (∀ id, ids = [id] →
        ∃ b, Selection___contains__ to_ids s r σ = (Ok b, σ1)
             ∧ Selection_element_ids s σ1 = (Ok (VElementId <$> selection σ1), σ1)
             ∧ (b = true ↔ ∃ e, e ∈ VElementId <$> selection σ1
                                ∧ py_eq e id = true)))
  ∧ (∀ e σ,
       (let* s := Selection_new (VList [VElement e]) in
        Selection___contains__ to_ids s (VElement e)) σ
       = (Ok true, set_selection (e :: selection σ) σ))
  ∧ (∀ e e2 σ,
       e2 ≠ e → e2 ∉ selection σ →
       (let* s := Selection_new (VList [VElement e]) in
        Selection___contains__ to_ids s (VElement e2)) σ
       = (Ok false, set_selection (e :: selection σ) σ)).
Proof.
  assert (Hnew : ∀ e σ, Selection_new (VList [VElement e]) σ
                        = (Ok host_selection, set_selection (e :: selection σ) σ)).
  { intros e σ. rewrite Selection_new_run. cbn [truthy].
    rewrite (bind_ok _ _ σ tt (set_selection ([e] ++ selection σ)%list σ));
      [reflexivity|].
    apply add_accepted, (add_element_ids_accepted KElement [e]). }
  assert (Hin : ∀ e σ,
            Selection___contains__ to_ids host_selection (VElement e) σ
            = (Ok (existsb (λ x, py_eq x (VElementId e)) (VElementId <$> selection σ)), σ)).
  { intros e σ. unfold Selection___contains__.
    rewrite (bind_ok _ _ _ _ _ (Helement e σ)). cbn [length Nat.eqb negb].
    rewrite (bind_ok _ _ σ (VElementId e) σ) by reflexivity.
    rewrite (bind_ok _ _ _ _ _ (element_ids_run σ)). reflexivity. }
  split_and!.
  - intros elements σ0 s σ r ids σ1 Hs Hids.
    apply Selection_new_inv in Hs as ->. split.
    + intros Hlen. unfold Selection___contains__.
      rewrite (bind_ok _ _ _ _ _ Hids).
      replace (length ids =? 1)%nat with false
        by (symmetry; apply Nat.eqb_neq, Hlen).
      reflexivity.
    + intros id ->.
      exists (existsb (λ e, py_eq e id) (VElementId <$> selection σ1)).
      split_and!.
      * unfold Selection___contains__.
        rewrite (bind_ok _ _ _ _ _ Hids). cbn [length Nat.eqb negb].
        rewrite (bind_ok _ _ σ1 id σ1) by reflexivity.
        rewrite (bind_ok _ _ _ _ _ (element_ids_run σ1)). reflexivity.
      * apply element_ids_run.
      * rewrite existsb_exists. split.
        -- intros (e & He & Heq). exists e. by rewrite list_elem_of_In.
        -- intros (e & He & Heq). exists e. by rewrite <- list_elem_of_In.
  - intros e σ. rewrite (bind_ok _ _ _ _ _ (Hnew e σ)).
    rewrite (Hin e). cbn. rewrite Z.eqb_refl. reflexivity.
  - intros e e2 σ Hne Hsel. rewrite (bind_ok _ _ _ _ _ (Hnew e σ)).
    rewrite (Hin e2). cbn [selection set_selection].
    rewrite existsb_py_eq_absent; [reflexivity|].
    apply not_elem_of_cons. split; assumption.
Qed.

Lemma contains_single_identifier_witness :
  (let* s := Selection_new (VList [VElement 1]) in
   Selection___contains__ to_element_ids s (VElement 2)) sample_world
  = (Ok false, set_selection (1 :: selection sample_world) sample_world).
Proof.
  apply (contains_single_identifier to_element_ids).
  - intros e σ. reflexivity.
  - discriminate.
  - cbn. intros H. apply list_elem_of_singleton in H. discriminate.
Defined.

(** C7, as stated, fails: element 3 is not element 1, but when the host
    selection already holds 3, [3 in Selection([1])] is true, because the
    constructor adds to what is selected. *)
Lemma contains_other_already_selected :
  3 ≠ 1
  ∧ selection sample_world = [3]
  ∧ (let* s := Selection_new (VList [VElement 1]) in
     Selection___contains__ to_element_ids s (VElement 3)) sample_world
    = (Ok true, set_selection [1; 3] sample_world).
Proof. split_and!; [discriminate|reflexivity|reflexivity]. Qed.

(** ** The claims about the base wrapper *)

(** C5: when the handle is an instance of the class the wrapper declares,
    the construction succeeds and changes nothing in the world, and
    [unwrap()] returns that very handle: the same value and, for a host
    object, the same location, so no copy is made. *)
Theorem unwrap_returns_handle (cls : wclass) (h : pyval) (σ : world) :
  isinstance (heap σ) h (c_revit_object_class cls) = true →
  ∃ w, wrap cls h σ = (Ok w, σ) ∧ unwrap w σ = (Ok h, σ).
Proof.
  intros Hi. eexists. split; [apply wrap_instance, Hi|].
  apply self__revit_object_found. cbn. apply lookup_singleton_eq.
Qed.

Lemma unwrap_returns_handle_witness :
  ∃ w, wrap WallWrapper (VObj 1%positive) wall_world = (Ok w, wall_world)
       ∧ unwrap w wall_world = (Ok (VObj 1%positive), wall_world).
Proof.
  apply (unwrap_returns_handle WallWrapper (VObj 1%positive) wall_world).
  reflexivity.
Defined.

(** C6: when the handle is not an instance of the class the wrapper
    declares, the construction prints the name of the wrapper class and
    raises the type error of the library, whose message gives the expected
    class and the type received; no wrapper comes out of it. *)
Theorem wrap_rejects_other_types (cls : wclass) (h : pyval) (σ : world) :
  isinstance (heap σ) h (c_revit_object_class cls) = false →
  wrap cls h σ
  = (Raise (TypeError_ "RpwTypeError"
              ("expected [" +:+ c_revit_object_class cls +:+ "], got ["
               +:+ type_name (heap σ) h +:+ "]")),
     add_stdout (c_name cls) σ)
  ∧ ∀ w σ', wrap cls h σ ≠ (Ok w, σ').
Proof.
  intros Hi. rewrite (wrap_other cls h σ Hi). split; [reflexivity|].
  intros w σ'. discriminate.
Qed.

Lemma wrap_rejects_other_types_witness :
  wrap WallWrapper (VInt 5) wall_world
  = (Raise (TypeError_ "RpwTypeError"
              ("expected [" +:+ c_revit_object_class WallWrapper +:+ "], got ["
               +:+ type_name (heap wall_world) (VInt 5) +:+ "]")),
     add_stdout (c_name WallWrapper) wall_world)
  ∧ ∀ w σ', wrap WallWrapper (VInt 5) wall_world ≠ (Ok w, σ').
Proof.
  apply (wrap_rejects_other_types WallWrapper (VInt 5) wall_world). reflexivity.
Defined.

Lemma hasattr_run h attr σ :
  hasattr h attr σ
  = (Ok (match getattr h attr σ with (Ok _, _) => true | _ => false end), σ).
Proof.
  unfold hasattr.
  assert (Hσ : snd (getattr h attr σ) = σ).
  { unfold getattr. destruct h; try reflexivity.
    - destruct (String.eqb attr "IntegerValue"); reflexivity.
    - destruct (String.eqb attr "Id"); reflexivity.
    - destruct (String.eqb attr "GetElementIds" || String.eqb attr "SetElementIds");
        reflexivity.
    - destruct (heap σ !! l) as [o|]; [|reflexivity].
      destruct (o_attrs o !! attr) as [[x|e]|]; reflexivity. }
  destruct (getattr h attr σ) as [[x|e] σ']; cbn in Hσ; subst; reflexivity.
Qed.

(* What the handle's own assignment leaves behind. *)
Lemma host_setattr_written h attr v σ σ' :
  host_setattr h attr v σ = (Ok tt, σ') → getattr h attr σ' = (Ok v, σ').
Proof.
  unfold host_setattr. destruct h; try discriminate.
  destruct (heap σ !! l) as [o|] eqn:Hl; [|discriminate].
  destruct (o_attrs o !! attr) as [[x|e]|] eqn:Hx; try discriminate.
  intros [= <-]. unfold getattr. cbn [heap set_heap].
  rewrite lookup_insert_eq. cbn [o_attrs]. rewrite lookup_insert_eq.
  reflexivity.
Qed.

Lemma host_setattr_rejected h attr v e σ σ' :
  host_setattr h attr v σ = (Raise e, σ') → σ' = σ.
Proof.
  unfold host_setattr. destruct h; try congruence.
  destruct (heap σ !! l) as [o|]; [|congruence].
  destruct (o_attrs o !! attr) as [[x|e']|]; congruence.
Qed.

(* The three ways an assignment on a wrapper that holds its handle goes. *)
Lemma setattr_cases (self : wrapper) (h : pyval) (attr : string) (v : pyval) σ :
  w_dict self !! "_revit_object" = Some h →
  BaseObjectWrapper___setattr__ self attr v σ
  = match getattr h attr σ with
    | (Ok _, _) =>
        match host_setattr h attr v σ with
        | (Ok _, σ') => (Ok self, σ')
        | (Raise e, σ') => (Raise e, σ')
        end
    | (Raise _, _) => object___setattr__ self attr v σ
    end.
Proof.
  intros Hw. unfold BaseObjectWrapper___setattr__.
  rewrite (bind_ok _ _ σ h σ) by (apply self__revit_object_found, Hw).
  rewrite (bind_run (hasattr h attr)), hasattr_run.
  destruct (getattr h attr σ) as [[x|e] σ1].
  - rewrite (bind_ok _ _ σ h σ) by (apply self__revit_object_found, Hw).
    rewrite bind_run. destruct (host_setattr h attr v σ) as [[u|e] σ']; reflexivity.
  - reflexivity.
Qed.

(** C4, as amended: for a handle h of the declared class and a name a that
    is not one the wrapper class defines: reading a on the wrapper gives
    what h gives, [wrap(h).a == h.a]; assigning to a name h exposes is
    handed to h's own assignment: when h accepts it, as it does for a plain
    attribute of a host object, [h.a == v] afterwards and the wrapper keeps
    its own attributes, and when h rejects it (a read-only attribute) the
    error of h is raised and nothing has changed; assigning to a name h
    does not expose stores the value in the wrapper and leaves h, and the
    whole host world, as it was. *)
Theorem attribute_delegation (cls : wclass) (h : pyval) (a : string)
    (σ : world) :
  isinstance (heap σ) h (c_revit_object_class cls) = true →
  a ∉ c_properties cls →
  ∃ w, wrap cls h σ = (Ok w, σ)
    ∧ (∀ x d, getattr h a σ = (Ok x, σ) →
         BaseObjectWrapper___getattr__ (S d) w a σ = (Ok x, σ))
    ∧ (∀ x v σ', getattr h a σ = (Ok x, σ) →
         host_setattr h a v σ = (Ok tt, σ') →
         BaseObjectWrapper___setattr__ w a v σ = (Ok w, σ')
         ∧ getattr h a σ' = (Ok v, σ')
         ∧ BaseObjectWrapper___getattr__ recursion_limit w a σ' = (Ok v, σ'))
    ∧ (∀ l o x v, h = VObj l → heap σ !! l = Some o →
         o_attrs o !! a = Some (Plain x) →
         getattr h a σ = (Ok x, σ)
         ∧ ∃ σ', host_setattr h a v σ = (Ok tt, σ'))
    ∧ (∀ x v e σ', getattr h a σ = (Ok x, σ) →
         host_setattr h a v σ = (Raise e, σ') →
         BaseObjectWrapper___setattr__ w a v σ = (Raise e, σ)
         ∧ σ' = σ)
    ∧ (∀ v e, getattr h a σ = (Raise e, σ) →
         ∃ w', BaseObjectWrapper___setattr__ w a v σ = (Ok w', σ)
               ∧ w_dict w' = <[a := v]> (w_dict w)
               ∧ w_dict w' !! a = Some v).
Proof.
  intros Hi Ha. eexists. split; [apply wrap_instance, Hi|].
  set (w := {| w_class := cls; w_dict := {[ "_revit_object" := h ]} |}).
  assert (Hw : w_dict w !! "_revit_object" = Some h)
    by apply lookup_singleton_eq.
  split_and!.
  - intros x d Hget.
    rewrite (getattr_forwarded d w h a σ Hw), Hget. reflexivity.
  - intros x v σ' Hget Hset.
    pose proof (host_setattr_written h a v σ σ' Hset) as Hget'.
    split_and!.
    + rewrite (setattr_cases w h a v σ Hw), Hget, Hset. reflexivity.
    + exact Hget'.
    + change recursion_limit with (S 999).
      rewrite (getattr_forwarded _ w h a σ' Hw), Hget'. reflexivity.
  - intros l o x v -> Hl Hx. split.
    + unfold getattr. rewrite Hl, Hx. reflexivity.
    + eexists. unfold host_setattr. rewrite Hl, Hx. reflexivity.
  - intros x v e σ' Hget Hset.
    pose proof (host_setattr_rejected h a v e σ σ' Hset) as ->.
    split; [|reflexivity].
    rewrite (setattr_cases w h a v σ Hw), Hget, Hset. reflexivity.
  - intros v e Hget. eexists. split_and!.
    + rewrite (setattr_cases w h a v σ Hw), Hget.
      unfold object___setattr__.
      rewrite bool_decide_eq_false_2 by exact Ha. reflexivity.
    + reflexivity.
    + apply lookup_insert_eq.
Qed.

Lemma attribute_delegation_witness :
  ∃ σ', BaseObjectWrapper___setattr__
          {| w_class := WallWrapper;
             w_dict := {[ "_revit_object" := VObj 1%positive ]} |}
          "Pinned" (VInt 1) wall_world
        = (Ok {| w_class := WallWrapper;
                 w_dict := {[ "_revit_object" := VObj 1%positive ]} |}, σ')
        ∧ getattr (VObj 1%positive) "Pinned" σ' = (Ok (VInt 1), σ').
Proof.
  destruct (attribute_delegation WallWrapper (VObj 1%positive) "Pinned" wall_world)
    as (w & Hw & _ & Hset & Hplain & _).
  - reflexivity.
  - cbn. apply not_elem_of_nil.
  - assert (Heq : w = {| w_class := WallWrapper;
                         w_dict := {[ "_revit_object" := VObj 1%positive ]} |}).
    { rewrite wrap_instance in Hw by reflexivity. congruence. }
    subst w.
    destruct (Hplain 1%positive wall (VInt 0) (VInt 1))
      as (Hget & σ' & Hhost); [reflexivity..|].
    destruct (Hset (VInt 0) (VInt 1) σ' Hget Hhost) as (H1 & H2 & _).
    exists σ'. split; assumption.
Defined.

(** C4, as stated, fails: an element is a valid handle for a wrapper that
    declares Element, and its [Id] is present on it and read through the
    wrapper; but [Id] cannot be assigned, so assigning it through the
    wrapper raises the handle's AttributeError and [h.Id] is not the value
    assigned. *)
Lemma setattr_read_only_attribute_not_written :
  isinstance (heap empty_world) (VElement 7) "Element" = true
  ∧ getattr (VElement 7) "Id" empty_world = (Ok (VElementId 7), empty_world)
  ∧ (let* w := wrap (Wrapper "ElementWrapper" "Element") (VElement 7) in
     BaseObjectWrapper___getattr__ recursion_limit w "Id") empty_world
    = (Ok (VElementId 7), empty_world)
  ∧ (let* w := wrap (Wrapper "ElementWrapper" "Element") (VElement 7) in
     BaseObjectWrapper___setattr__ w "Id" (VElementId 8)) empty_world
    = (Raise (AttributeError "Id"), empty_world)
  ∧ getattr (VElement 7) "Id" empty_world ≠ (Ok (VElementId 8), empty_world).
Proof. split_and!; [reflexivity..|discriminate]. Qed.

(** A failure of the handle other than a KeyError reaches the caller of
    [__getattr__] as the handle raised it. *)
Lemma getattr_forwards_other_errors d self h attr e σ σ' :
  w_dict self !! "_revit_object" = Some h →
  getattr h attr σ = (Raise e, σ') →
  is_KeyError e = false →
  BaseObjectWrapper___getattr__ (S d) self attr σ = (Raise e, σ').
Proof.
  intros Hw Hget He. rewrite (getattr_forwarded d self h attr σ Hw), Hget.
  destruct e; try reflexivity. discriminate.
Qed.

(** C3 fails on the code: the wall's Broken property raises KeyError when it
    is read; the wrapper holds the wall as its handle, and reading Broken
    through the wrapper raises the wrapper's own exception, whose message
    says that the handle is missing, instead of the KeyError. *)
Lemma getattr_translates_KeyError :
  getattr (VObj 1%positive) "Broken" wall_world
  = (Raise (KeyError "missing"), wall_world)
  ∧ (let* w := wrap WallWrapper (VObj 1%positive) in
     BaseObjectWrapper___getattr__ recursion_limit w "Broken") wall_world
    = (Raise (Exception_ "RpwException"
                "BaseObjectWrapper is missing _revit_object: <rpw:WallWrapper % Autodesk.Revit.DB.Wall | >"),
       wall_world).
Proof. split; vm_compute; reflexivity. Qed.

(** * Further properties of the selection wrapper *)

Lemma set_selection_same σ : set_selection (selection σ) σ = σ.
Proof. destruct σ; reflexivity. Qed.

Lemma forallb_kind_inv (p : pyval → bool) (k : kind) (l : list pyval) :
  (∀ v, p v = true → ∃ n, v = inject k n) →
  forallb p l = true → ∃ ns, l = inject k <$> ns.
Proof.
  intros Hp. induction l as [|v l IH]; intros Hl.
  - exists []. reflexivity.
  - cbn in Hl. apply andb_prop in Hl as [Hv Hl].
    destruct (Hp v Hv) as [n ->]. destruct (IH Hl) as [ns ->].
    exists (n :: ns). reflexivity.
Qed.

(* The chain of add either finds as many identifiers as it has items, or
   raises the type error; it never touches the world. *)
Lemma add_element_ids_total (l : list pyval) σ :
  (∃ ns, length ns = length l
         ∧ add_element_ids l σ = (Ok (VElementId <$> ns), σ))
  ∨ (∃ msg, add_element_ids l σ = (Raise (TypeError_ "RpwTypeError" msg), σ)).
Proof.
  destruct (forallb is_ElementId l) eqn:H1;
    [|destruct (forallb is_Element l) eqn:H2;
      [|destruct (forallb is_int l) eqn:H3]].
  - destruct (forallb_kind_inv is_ElementId KElementId l) as [ns ->];
      [intros [] Hv; try discriminate; eexists; reflexivity|exact H1|].
    left. exists ns. split; [by rewrite length_fmap|].
    apply add_element_ids_accepted.
  - destruct (forallb_kind_inv is_Element KElement l) as [ns ->];
      [intros [] Hv; try discriminate; eexists; reflexivity|exact H2|].
    left. exists ns. split; [by rewrite length_fmap|].
    apply add_element_ids_accepted.
  - destruct (forallb_kind_inv is_int KInt l) as [ns ->];
      [intros [] Hv; try discriminate; eexists; reflexivity|exact H3|].
    left. exists ns. split; [by rewrite length_fmap|].
    apply add_element_ids_accepted.
  - right. destruct l as [|first rest]; [discriminate|].
    eexists. unfold add_element_ids. rewrite H1, H2, H3. reflexivity.
Qed.

(** X1: [add] is all or nothing, whatever it is given: either it succeeds,
    and then the only change in the world is that as many identifiers as
    the input has items stand in front of the earlier host selection; or it
    raises the type error of the library and the world is what it was. *)
Theorem add_all_or_nothing (self : wrapper) (x : pyval) (σ : world) :
  (∃ ns, length ns = length (as_list x)
         ∧ Selection_add self x σ
           = (Ok tt, set_selection (ns ++ selection σ)%list σ))
  ∨ (∃ msg, Selection_add self x σ
            = (Raise (TypeError_ "RpwTypeError" msg), σ)).
Proof.
  destruct (add_element_ids_total (as_list x) σ) as [(ns & Hlen & H)|(msg & H)].
  - left. exists ns. split; [exact Hlen|]. apply add_accepted, H.
  - right. exists msg. apply add_rejected, H.
Qed.

(** X2: [add([])] succeeds and leaves the host selection, and the rest of
    the world, exactly as it was. *)
Theorem add_empty_list_changes_nothing (self : wrapper) (σ : world) :
  Selection_add self (VList []) σ = (Ok tt, σ).
Proof.
  rewrite (add_accepted self (VList []) [] σ) by reflexivity.
  cbn [app]. rewrite set_selection_same. reflexivity.
Qed.


(* A list is of one accepted kind throughout, or of none. *)
Lemma one_kind_or_mixed (l : list pyval) :
  (∃ k ns, l = inject k <$> ns)
  ∨ (forallb is_ElementId l = false ∧ forallb is_Element l = false
     ∧ forallb is_int l = false).
Proof.
  destruct (forallb is_ElementId l) eqn:H1;
    [|destruct (forallb is_Element l) eqn:H2;
      [|destruct (forallb is_int l) eqn:H3]].
  - left. exists KElementId.
    apply (forallb_kind_inv is_ElementId); [|exact H1].
    intros [] Hv; try discriminate; eexists; reflexivity.
  - left. exists KElement.
    apply (forallb_kind_inv is_Element); [|exact H2].
    intros [] Hv; try discriminate; eexists; reflexivity.
  - left. exists KInt.
    apply (forallb_kind_inv is_int); [|exact H3].
    intros [] Hv; try discriminate; eexists; reflexivity.
  - right. split_and!; reflexivity.
Qed.

(** X4: every [Selection(...)] is all or nothing, and one of three things
    happens.  For an argument that is false, the wrapper is returned and
    the world is what it was.  For a true argument that is, as a list, of
    one accepted kind throughout, the wrapper is returned and the
    identifiers its items stand for, those and in their order, are in front
    of the earlier host selection, nothing else having changed.  For a true
    argument of mixed kinds, the type error of the library is raised,
    naming the type of the first item, and the world is what it was. *)
Theorem Selection_all_or_nothing (elements : pyval) (σ : world) :
  (truthy elements = false
   ∧ Selection_new elements σ = (Ok host_selection, σ))
  ∨ (truthy elements = true
     ∧ ∃ k ns, as_list elements = inject k <$> ns
               ∧ Selection_new elements σ
                 = (Ok host_selection,
                    set_selection (ns ++ selection σ)%list σ))
  ∨ (truthy elements = true
     ∧ ∃ first rest,
         as_list elements = first :: rest
         ∧ forallb is_ElementId (as_list elements) = false
         ∧ forallb is_Element (as_list elements) = false
         ∧ forallb is_int (as_list elements) = false
         ∧ Selection_new elements σ
           = (Raise (TypeError_ "RpwTypeError"
                       ("expected [list], got ["
                        +:+ type_name (heap σ) first +:+ "]")), σ)).
Proof.
  rewrite Selection_new_run. destruct (truthy elements).
  - right. destruct (one_kind_or_mixed (as_list elements))
      as [(k & ns & Hl)|(H1 & H2 & H3)].
    + left. split; [reflexivity|]. exists k, ns. split; [exact Hl|].
      rewrite (bind_ok _ _ σ tt (set_selection (ns ++ selection σ)%list σ));
        [reflexivity|].
      apply add_accepted. rewrite Hl. apply add_element_ids_accepted.
    + right. split; [reflexivity|].
      destruct (as_list elements) as [|first rest] eqn:Hl; [discriminate|].
      exists first, rest. split_and!; try assumption; try reflexivity.
      apply bind_raise, add_rejected. rewrite Hl.
      unfold add_element_ids. rewrite H1, H2, H3. reflexivity.
  - left. split; reflexivity.
Qed.

Lemma len_run σ :
  Selection___len__ host_selection σ = (Ok (length (selection σ)), σ).
Proof.
  unfold Selection___len__. rewrite (bind_ok _ _ _ _ _ (element_ids_run σ)).
  rewrite length_fmap. reflexivity.
Qed.

Lemma bool_run σ :
  Selection___bool__ host_selection σ
  = (Ok (negb (length (selection σ) =? 0)%nat), σ).
Proof.
  unfold Selection___bool__. rewrite (bind_ok _ _ _ _ _ (elements_run σ)).
  destruct (selection σ); reflexivity.
Qed.

(** X5: the truth value of a selection and its length agree, in every
    world: [bool(selection)] is true exactly when [len(selection)] is not
    0, also when identifiers of the host selection resolve to no element of
    the document; neither of the two changes the world. *)
Theorem bool_agrees_with_len (elements : pyval) (σ0 : world) (s : wrapper)
    (σ : world) :
  Selection_new elements σ0 = (Ok s, σ) →
  ∃ b n, Selection___bool__ s σ = (Ok b, σ)
         ∧ Selection___len__ s σ = (Ok n, σ)
         ∧ n = length (selection σ)
         ∧ (b = true ↔ n ≠ 0%nat).
Proof.
  intros Hs. apply Selection_new_inv in Hs as ->.
  exists (negb (length (selection σ) =? 0)%nat), (length (selection σ)).
  split_and!; [apply bool_run|apply len_run|reflexivity|].
  destruct (length (selection σ)); cbn; split; (congruence || discriminate).
Qed.

Lemma bool_agrees_with_len_witness :
  ∃ b n, Selection___bool__ host_selection sample_world = (Ok b, sample_world)
         ∧ Selection___len__ host_selection sample_world = (Ok n, sample_world)
         ∧ n = length (selection sample_world)
         ∧ (b = true ↔ n ≠ 0%nat).
Proof.
  apply (bool_agrees_with_len VNone sample_world host_selection sample_world).
  reflexivity.
Defined.

(** X6: [elements] runs along [element_ids]: the two have the same length,
    and at every position the element is what [doc.GetElement] gives for
    the identifier at that position: the element of that identifier, or
    None when the document has no such element.  Reading them leaves the
    world as it was. *)
Theorem elements_follow_element_ids (elements : pyval) (σ0 : world)
    (s : wrapper) (σ : world) :
  Selection_new elements σ0 = (Ok s, σ) →
  ∃ ids es,
    Selection_element_ids s σ = (Ok ids, σ)
    ∧ Selection_elements s σ = (Ok es, σ)
    ∧ length es = length ids
    ∧ ∀ (i : nat) id, ids !! i = Some id →
        ∃ n e, id = VElementId n
               ∧ selection σ !! i = Some n
               ∧ es !! i = Some e
               ∧ doc_GetElement id σ = (Ok e, σ)
               ∧ e = (if bool_decide (n ∈ document σ) then VElement n else VNone).
Proof.
  intros Hs. apply Selection_new_inv in Hs as ->.
  exists (VElementId <$> selection σ), (resolve σ <$> selection σ).
  split_and!; [apply element_ids_run|apply elements_run|by rewrite !length_fmap|].
  intros i id Hi. apply list_lookup_fmap_Some in Hi as (n & -> & Hn).
  exists n, (resolve σ n). split_and!; try reflexivity.
  - exact Hn.
  - rewrite list_lookup_fmap, Hn. reflexivity.
Qed.

Lemma elements_follow_element_ids_witness :
  ∃ ids es,
    Selection_element_ids host_selection sample_world = (Ok ids, sample_world)
    ∧ Selection_elements host_selection sample_world = (Ok es, sample_world)
    ∧ length es = length ids
    ∧ ∀ (i : nat) id, ids !! i = Some id →
        ∃ n e, id = VElementId n
               ∧ selection sample_world !! i = Some n
               ∧ es !! i = Some e
               ∧ doc_GetElement id sample_world = (Ok e, sample_world)
               ∧ e = (if bool_decide (n ∈ document sample_world)
                      then VElement n else VNone).
Proof.
  apply (elements_follow_element_ids VNone sample_world host_selection sample_world).
  reflexivity.
Defined.

(** X7: the length of a selection after [add] is its length before plus the
    number of items added: identifiers that are added twice, or that were
    selected already, count each time. *)
Theorem len_after_add (elements : pyval) (σ0 : world) (s : wrapper) (σ : world)
    (k : kind) (ns : list Z) :
  Selection_new elements σ0 = (Ok s, σ) →
  (Selection_add s (VList (inject k <$> ns)) ;; Selection___len__ s) σ
  = (Ok (length ns + length (selection σ))%nat,
     set_selection (ns ++ selection σ)%list σ).
Proof.
  intros Hs. apply Selection_new_inv in Hs as ->.
  rewrite (bind_ok _ _ σ tt (set_selection (ns ++ selection σ)%list σ))
    by apply add_accepted, add_element_ids_accepted.
  rewrite len_run. cbn [selection set_selection]. rewrite length_app.
  reflexivity.
Qed.

Lemma len_after_add_witness :
  (Selection_add host_selection (VList (inject KInt <$> [3; 3])) ;;
   Selection___len__ host_selection) sample_world
  = (Ok (length [3; 3] + length (selection sample_world))%nat,
     set_selection ([3; 3] ++ selection sample_world)%list sample_world).
Proof.
  apply (len_after_add VNone sample_world host_selection sample_world KInt [3; 3]).
  reflexivity.
Defined.

(** X8: the first item of a selection built from a list of references is
    the element of the first reference [Selection([r, ...])[0]], whatever
    was selected before, or None when the document has no element of that
    identifier. *)
Theorem first_item_of_new_selection (k : kind) (n : Z) (ns : list Z)
    (σ : world) :
  (let* s := Selection_new (VList (inject k <$> (n :: ns))) in
   Selection___getitem__ s 0) σ
  = (Ok (if bool_decide (n ∈ document σ) then VElement n else VNone),
     set_selection ((n :: ns) ++ selection σ)%list σ).
Proof.
  set (σ' := set_selection ((n :: ns) ++ selection σ)%list σ).
  rewrite (bind_ok _ _ σ host_selection σ').
  - unfold Selection___getitem__.
    rewrite (bind_ok _ _ _ _ _ (elements_run σ')). reflexivity.
  - rewrite Selection_new_run. cbn [truthy fmap list_fmap].
    rewrite (bind_ok _ _ σ tt σ'); [reflexivity|].
    apply add_accepted, (add_element_ids_accepted k (n :: ns)).
Qed.

(** X9: [clear] forgets what was added before it, and what is added after
    it is the whole selection: after [add(xs); clear(); add(ys)] the host
    selection is ys; and clearing twice is clearing once. *)
Theorem clear_resets_selection (self : wrapper) (k1 k2 : kind) (xs ys : list Z)
    (σ : world) :
  (Selection_add self (VList (inject k1 <$> xs)) ;;
   Selection_clear self ;;
   Selection_add self (VList (inject k2 <$> ys))) σ
  = (Ok tt, set_selection ys σ)
  ∧ (Selection_clear self ;; Selection_clear self) σ = Selection_clear self σ.
Proof.
  split; [|reflexivity].
  rewrite (bind_ok _ _ σ tt (set_selection (xs ++ selection σ)%list σ))
    by apply add_accepted, add_element_ids_accepted.
  rewrite (bind_ok _ _ _ tt (set_selection [] σ)) by reflexivity.
  rewrite (add_accepted self _ ys) by apply add_element_ids_accepted.
  cbn [selection set_selection]. rewrite app_nil_r. reflexivity.
Qed.

Lemma existsb_py_eq_present (id : Z) (ns : list Z) :
  id ∈ ns → existsb (λ e, py_eq e (VElementId id)) (VElementId <$> ns) = true.
Proof.
  induction ns as [|n ns IH]; intros Hid; [by apply not_elem_of_nil in Hid|].
  cbn. apply elem_of_cons in Hid as [->|Hid].
  - rewrite Z.eqb_refl. reflexivity.
  - rewrite (IH Hid). apply orb_true_r.
Qed.

(** X10: with a [to_element_ids] that turns an identifier, an element or an
    integer into the one identifier it stands for, [reference in selection]
    is true exactly when that identifier is among those the host selection
    holds, for each of the three kinds of reference, and the test changes
    nothing; and when [to_element_ids] raises, the test raises the same
    error. *)
Theorem contains_decides_by_identifier (to_ids : pyval → M (list pyval))
    (elements : pyval) (σ0 : world) (s : wrapper) (σ : world) :
  (∀ k n σ, to_ids (inject k n) σ = (Ok [VElementId n], σ)) →
  Selection_new elements σ0 = (Ok s, σ) →
  (∀ k n, Selection___contains__ to_ids s (inject k n) σ
          = (Ok (bool_decide (n ∈ selection σ)), σ))
  ∧ (∀ r e σ1, to_ids r σ = (Raise e, σ1) →
               Selection___contains__ to_ids s r σ = (Raise e, σ1)).
Proof.
  intros Hto Hs. apply Selection_new_inv in Hs as ->. split.
  - intros k n. unfold Selection___contains__.
    rewrite (bind_ok _ _ _ _ _ (Hto k n σ)). cbn [length Nat.eqb negb].
    rewrite (bind_ok _ _ σ (VElementId n) σ) by reflexivity.
    rewrite (bind_ok _ _ _ _ _ (element_ids_run σ)). unfold ret. f_equal. f_equal.
    destruct (decide (n ∈ selection σ)) as [Hin|Hout].
    + rewrite bool_decide_eq_true_2 by exact Hin.
      apply existsb_py_eq_present, Hin.
    + rewrite bool_decide_eq_false_2 by exact Hout.
      apply existsb_py_eq_absent, Hout.
  - intros r e σ1 Hr. unfold Selection___contains__. apply bind_raise, Hr.
Qed.

Lemma contains_decides_by_identifier_witness :
  (∀ k n, Selection___contains__ to_element_ids host_selection (inject k n)
            sample_world
          = (Ok (bool_decide (n ∈ selection sample_world)), sample_world))
  ∧ (∀ r e σ1, to_element_ids r sample_world = (Raise e, σ1) →
               Selection___contains__ to_element_ids host_selection r sample_world
               = (Raise e, σ1)).
Proof.
  apply (contains_decides_by_identifier to_element_ids VNone sample_world).
  - intros k n σ. destruct k; reflexivity.
  - reflexivity.
Defined.

(** * Further properties of the base wrapper *)

(* Without the handle slot, each of the four functions that call one
   another runs into the limit of nested calls. *)
Lemma missing_slot_recursion (self : wrapper) (depth : nat) :
  w_dict self !! "_revit_object" = None →
  (∀ attr σ, BaseObjectWrapper___getattr__ depth self attr σ
             = (Raise recursion_error, σ))
  ∧ (∀ σ, self__revit_object depth self σ = (Raise recursion_error, σ))
  ∧ (∀ data σ, BaseObjectWrapper___repr__ depth self data σ
               = (Raise recursion_error, σ))
  ∧ (∀ σ, format_self depth self σ = (Raise recursion_error, σ)).
Proof.
  intros Hnone. induction depth as [|d (IHg & IHs & IHr & IHf)].
  - split_and!; intros; cbn; rewrite ?Hnone; reflexivity.
  - split_and!.
    + intros attr σ. cbn [BaseObjectWrapper___getattr__].
      unfold try_except, dict_item. rewrite Hnone.
      rewrite (bind_raise _ _ σ (KeyError "_revit_object") σ) by reflexivity.
      cbn [is_KeyError]. apply bind_raise, IHf.
    + intros σ. cbn [self__revit_object]. rewrite Hnone. apply IHg.
    + intros data σ. cbn [BaseObjectWrapper___repr__]. apply bind_raise, IHs.
    + intros σ. cbn [format_self].
      destruct (w_class self); apply bind_raise || apply IHr. apply IHs.
Qed.

(** X11: on a wrapper whose [_revit_object] slot is missing (a subclass
    that did not call the base [__init__]), reading a forwarded attribute
    does not end in the wrapper's own exception: building its message
    formats the wrapper, which reads [_revit_object] again, and so on until
    the limit of nested calls is reached, whatever that limit is;
    [unwrap()] and the assignment of an attribute end the same way. *)
Theorem missing_handle_slot_recurses (self : wrapper) (depth : nat)
    (attr : string) (v : pyval) (σ : world) :
  w_dict self !! "_revit_object" = None →
  BaseObjectWrapper___getattr__ depth self attr σ = (Raise recursion_error, σ)
  ∧ (∀ msg, BaseObjectWrapper___getattr__ depth self attr σ
            ≠ (Raise (RPW_Exception msg), σ))
  ∧ unwrap self σ = (Raise recursion_error, σ)
  ∧ BaseObjectWrapper___setattr__ self attr v σ = (Raise recursion_error, σ).
Proof.
  intros Hnone.
  destruct (missing_slot_recursion self depth Hnone) as (Hg & _).
  destruct (missing_slot_recursion self recursion_limit Hnone) as (_ & Hs & _).
  split_and!.
  - apply Hg.
  - intros msg. rewrite Hg. discriminate.
  - apply Hs.
  - unfold BaseObjectWrapper___setattr__. apply bind_raise, Hs.
Qed.

Lemma missing_handle_slot_recurses_witness :
  BaseObjectWrapper___getattr__ recursion_limit (new WallWrapper) "Pinned"
    wall_world
  = (Raise recursion_error, wall_world)
  ∧ (∀ msg, BaseObjectWrapper___getattr__ recursion_limit (new WallWrapper)
              "Pinned" wall_world
            ≠ (Raise (RPW_Exception msg), wall_world))
  ∧ unwrap (new WallWrapper) wall_world = (Raise recursion_error, wall_world)
  ∧ BaseObjectWrapper___setattr__ (new WallWrapper) "Pinned" (VInt 1) wall_world
    = (Raise recursion_error, wall_world).
Proof.
  apply (missing_handle_slot_recurses (new WallWrapper) recursion_limit
           "Pinned" (VInt 1) wall_world).
  reflexivity.
Defined.

(** X12: on a wrapper that holds its handle, a forwarded read answers what
    the handle answers, value or error, with the handle's effect on the
    world, unless the handle raises KeyError; so a name that neither the
    wrapper nor the handle has ends in the handle's AttributeError. *)
Theorem getattr_answers_as_handle (d : nat) (self : wrapper) (h : pyval)
    (attr : string) (r : result pyval) (σ σ' : world) :
  w_dict self !! "_revit_object" = Some h →
  getattr h attr σ = (r, σ') →
  (∀ k, r ≠ Raise (KeyError k)) →
  BaseObjectWrapper___getattr__ (S d) self attr σ = (r, σ').
Proof.
  intros Hw Hget Hr. rewrite (getattr_forwarded d self h attr σ Hw), Hget.
  destruct r as [x|e]; [reflexivity|].
  destruct e; try reflexivity. by destruct (Hr msg).
Qed.

Lemma getattr_answers_as_handle_witness :
  BaseObjectWrapper___getattr__ (S 0)
    {| w_class := WallWrapper;
       w_dict := {[ "_revit_object" := VObj 1%positive ]} |}
    "Height" wall_world
  = (Raise (AttributeError "Height"), wall_world).
Proof.
  apply (getattr_answers_as_handle 0 _ (VObj 1%positive)).
  - reflexivity.
  - reflexivity.
  - intros k. discriminate.
Defined.



(** X14: the assignment does not protect the handle slot and repeats no
    check of [__init__]: when the handle has no attribute named
    [_revit_object], assigning any value to [_revit_object] on the wrapper
    replaces the handle, and [unwrap()] then returns that value, of
    whatever type it is. *)
Theorem setattr_can_replace_handle (self : wrapper) (h v : pyval) (e : exn)
    (σ : world) :
  w_dict self !! "_revit_object" = Some h →
  getattr h "_revit_object" σ = (Raise e, σ) →
  ∃ self', BaseObjectWrapper___setattr__ self "_revit_object" v σ = (Ok self', σ)
           ∧ w_class self' = w_class self
           ∧ unwrap self' σ = (Ok v, σ).
Proof.
  intros Hw Hget. eexists. split_and!.
  - rewrite (setattr_cases self h "_revit_object" v σ Hw), Hget.
    unfold object___setattr__. rewrite not_a_property. reflexivity.
  - reflexivity.
  - apply self__revit_object_found. cbn. apply lookup_insert_eq.
Qed.

Lemma setattr_can_replace_handle_witness :
  ∃ self',
    BaseObjectWrapper___setattr__
      {| w_class := WallWrapper;
         w_dict := {[ "_revit_object" := VObj 1%positive ]} |}
      "_revit_object" (VInt 5) wall_world
    = (Ok self', wall_world)
    ∧ w_class self' = WallWrapper
    ∧ unwrap self' wall_world = (Ok (VInt 5), wall_world).
Proof.
  apply (setattr_can_replace_handle
           {| w_class := WallWrapper;
              w_dict := {[ "_revit_object" := VObj 1%positive ]} |}
           (VObj 1%positive) (VInt 5) (AttributeError "_revit_object") wall_world).
  - reflexivity.
  - reflexivity.
Defined.

(** X16: on a selection, [element_ids] and [elements] are properties
    without a setter and the host's selection handle has no attribute of
    these names, so assigning to either of them raises AttributeError and
    changes neither the wrapper nor the world. *)
Theorem selection_properties_are_read_only (elements : pyval) (σ0 : world)
    (s : wrapper) (σ : world) (attr : string) (v : pyval) :
  Selection_new elements σ0 = (Ok s, σ) →
  attr = "element_ids" ∨ attr = "elements" →
  BaseObjectWrapper___setattr__ s attr v σ
  = (Raise (AttributeError "can't set attribute"), σ).
Proof.
  intros Hs Hattr. apply Selection_new_inv in Hs as ->.
  rewrite (setattr_cases host_selection VSelection attr v σ) by reflexivity.
  destruct Hattr as [-> | ->]; reflexivity.
Qed.

Lemma selection_properties_are_read_only_witness :
  BaseObjectWrapper___setattr__ host_selection "elements" (VList []) sample_world
  = (Raise (AttributeError "can't set attribute"), sample_world).
Proof.
  apply (selection_properties_are_read_only VNone sample_world host_selection
           sample_world "elements" (VList [])).
  - reflexivity.
  - right. reflexivity.
Defined.

(** X17: a selection forwards the host's own method: the attribute
    [GetElementIds] read on the wrapper is the host's method, and calling
    it returns the identifiers that [element_ids] lists, in the same
    order. *)
Theorem selection_forwards_GetElementIds (elements : pyval) (σ0 : world)
    (s : wrapper) (σ : world) (d : nat) :
  Selection_new elements σ0 = (Ok s, σ) →
  ∃ m ids,
    BaseObjectWrapper___getattr__ (S d) s "GetElementIds" σ = (Ok m, σ)
    ∧ call m [] σ = (Ok (VList ids), σ)
    ∧ Selection_element_ids s σ = (Ok ids, σ).
Proof.
  intros Hs. apply Selection_new_inv in Hs as ->.
  exists (VMember "Selection" "GetElementIds"), (VElementId <$> selection σ).
  split_and!.
  - rewrite (getattr_forwarded d host_selection VSelection) by reflexivity.
    reflexivity.
  - reflexivity.
  - apply element_ids_run.
Qed.

Lemma selection_forwards_GetElementIds_witness :
  ∃ m ids,
    BaseObjectWrapper___getattr__ (S 0) host_selection "GetElementIds"
      sample_world = (Ok m, sample_world)
    ∧ call m [] sample_world = (Ok (VList ids), sample_world)
    ∧ Selection_element_ids host_selection sample_world = (Ok ids, sample_world).
Proof.
  apply (selection_forwards_GetElementIds VNone sample_world host_selection
           sample_world 0).
  reflexivity.
Defined.

(** * Further properties of the exceptions *)

(** X18: of the classes the exceptions module declares, [except
    RpwException] catches RpwException, RpwParameterNotFound,
    RpwWrongStorageType and RpwCoerceError, and it does not catch
    RpwTypeError nor RpwValueError, which derive from TypeError and
    ValueError only; each of the three classes with two bases is caught
    under its built-in base as well. *)
Theorem RpwException_catches (c : exc_class) :
  (issubclass c C_RpwException = true
   ↔ c ∈ [C_RpwException; C_RpwParameterNotFound; C_RpwWrongStorageType;
          C_RpwCoerceError])
  ∧ issubclass C_RpwTypeError C_TypeError = true
  ∧ issubclass C_RpwValueError C_ValueError = true
  ∧ issubclass C_RpwParameterNotFound C_KeyError = true
  ∧ issubclass C_RpwWrongStorageType C_TypeError = true
  ∧ issubclass C_RpwCoerceError C_ValueError = true.
Proof.
  split_and!; try reflexivity.
  destruct c; cbn; split; intros H; try discriminate; try reflexivity;
    try (repeat (apply elem_of_cons; (by left) || right);
         by apply not_elem_of_nil in H);
    repeat (apply elem_of_cons in H as [H|H]; [discriminate|]);
    by apply not_elem_of_nil in H.
Qed.

(** X19: a handler [except RpwException] around a call that raises the
    type error of the library lets that error through, with the world as
    the failed call left it, while a handler [except TypeError] catches it;
    so it is for the construction of a wrapper on a handle of another type
    and for every [add] that does not succeed. *)
Theorem type_errors_escape_except_RpwException {A} (m : M A) (handler : M A)
    (msg : string) (σ σ' : world) :
  m σ = (Raise (TypeError_ "RpwTypeError" msg), σ') →
  try_except m (except C_RpwException) handler σ
  = (Raise (TypeError_ "RpwTypeError" msg), σ')
  ∧ try_except m (except C_TypeError) handler σ = handler σ'
  ∧ (∀ cls h,
       isinstance (heap σ) h (c_revit_object_class cls) = false →
       try_except (wrap cls h) (except C_RpwException) (ret (new cls)) σ
       = wrap cls h σ)
  ∧ (∀ self x, (∀ ns, Selection_add self x σ
                      ≠ (Ok tt, set_selection (ns ++ selection σ)%list σ)) →
       try_except (Selection_add self x) (except C_RpwException) (ret tt) σ
       = Selection_add self x σ).
Proof.
  intros Hm. split_and!.
  - unfold try_except. rewrite Hm. reflexivity.
  - unfold try_except. rewrite Hm. reflexivity.
  - intros cls h Hi. unfold try_except.
    rewrite (wrap_other cls h σ Hi). reflexivity.
  - intros self x Hno. unfold try_except.
    destruct (add_element_ids_total (as_list x) σ) as [(ns & _ & H)|(m' & H)].
    + destruct (Hno ns). apply add_accepted, H.
    + rewrite (add_rejected self x _ σ σ H). reflexivity.
Qed.

Lemma type_errors_escape_except_RpwException_witness :
  try_except (wrap WallWrapper (VInt 5)) (except C_RpwException)
    (ret (new WallWrapper)) wall_world
  = (Raise (TypeError_ "RpwTypeError" "expected [Wall], got [int]"),
     add_stdout "WallWrapper" wall_world).
Proof.
  destruct (type_errors_escape_except_RpwException (wrap WallWrapper (VInt 5))
              (ret (new WallWrapper)) "expected [Wall], got [int]" wall_world
              (add_stdout "WallWrapper" wall_world)) as [H _].
  - reflexivity.
  - exact H.
Defined.

(** X20: the text of a selection, from [repr] as from [str.format], is the
    fixed frame around the class name Selection, the text the host's handle
    gives for itself, and the number of identifiers selected; producing it
    changes nothing. *)
Theorem selection_repr_shows_count (elements : pyval) (σ0 : world)
    (s : wrapper) (σ : world) (d : nat) :
  Selection_new elements σ0 = (Ok s, σ) →
  ∃ name text,
    ToString VSelection σ = (Ok name, σ)
    ∧ text = "<rpw:Selection % " +:+ name +:+ " | "
             +:+ pretty (length (selection σ)) +:+ ">"
    ∧ Selection___repr__ s σ = (Ok text, σ)
    ∧ format_self (S (S (S d))) s σ = (Ok text, σ).
Proof.
  intros Hs. apply Selection_new_inv in Hs as ->.
  eexists _, _. split_and!; [reflexivity|reflexivity| |].
  - unfold Selection___repr__. rewrite (bind_ok _ _ _ _ _ (len_run σ)).
    reflexivity.
  - cbn [format_self w_class host_selection].
    rewrite (bind_ok _ _ σ VSelection σ)
      by (apply self__revit_object_found; reflexivity).
    rewrite (bind_ok _ _ _ _ _ (element_ids_of_host σ)).
    rewrite length_fmap. reflexivity.
Qed.

Lemma selection_repr_shows_count_witness :
  ∃ name text,
    ToString VSelection sample_world = (Ok name, sample_world)
    ∧ text = "<rpw:Selection % " +:+ name +:+ " | "
             +:+ pretty (length (selection sample_world)) +:+ ">"
    ∧ Selection___repr__ host_selection sample_world = (Ok text, sample_world)
    ∧ format_self (S (S (S 0))) host_selection sample_world
      = (Ok text, sample_world).
Proof.
  apply (selection_repr_shows_count VNone sample_world host_selection
           sample_world 0).
  reflexivity.
Defined.
